(** * The Heston stochastic-volatility process (ql/processes/hestonprocess.cpp)

    A shallow embedding of [QuantLib::HestonProcess] and the properties of
    its four process primitives ([initialValues], [drift], [diffusion],
    [apply]) and of its time mapping.

    Numbers.  QuantLib's [Real] is modelled by exact real arithmetic
    extended with one non-number: a [Real] is either [Num r] for a real
    number [r], or [NaN], which is what [std::sqrt] yields outside its
    domain and what every arithmetic operation propagates.  Rounding,
    overflow and infinities are not modelled.

    Objects.  Quotes are shared mutable objects: they live in a store
    indexed by address, and a handle is either empty or holds the address
    of the quote it is linked to.  Term structures are never mutated by the
    process, so a term-structure handle holds the curve itself.

    Failures.  Dereferencing an empty handle and indexing an array out of
    range abort the call; the methods therefore return a [result]. *)

From Stdlib Require Import Reals Lra.
From stdpp Require Import base option list gmap.

(** ** The numeric domain *)

Inductive Real : Type :=
  | Num (r : R)
  | NaN.

Declare Scope Real_scope.
Delimit Scope Real_scope with Real.
Bind Scope Real_scope with Real.

Module RealOps.

Definition lift2 (f : R -> R -> R) (a b : Real) : Real :=
  match a, b with
  | Num x, Num y => Num (f x y)
  | _, _ => NaN
  end.

Definition add : Real -> Real -> Real := lift2 Rplus.
Definition sub : Real -> Real -> Real := lift2 Rminus.
Definition mul : Real -> Real -> Real := lift2 Rmult.

(** [a > b]; any comparison with NaN is false. *)
Definition gtb (a b : Real) : bool :=
  match a, b with
  | Num x, Num y => if Rlt_dec y x then true else false
  | _, _ => false
  end.

(** [std::sqrt]: a domain error (negative argument) gives NaN. *)
Definition std_sqrt (a : Real) : Real :=
  match a with
  | Num x => if Rle_dec 0 x then Num (sqrt x) else NaN
  | NaN => NaN
  end.

(** [std::exp]. *)
Definition std_exp (a : Real) : Real :=
  match a with
  | Num x => Num (exp x)
  | NaN => NaN
  end.

End RealOps.
Export RealOps.

Notation "a + b" := (add a b) : Real_scope.
Notation "a - b" := (sub a b) : Real_scope.
Notation "a * b" := (mul a b) : Real_scope.
Notation "a >? b" := (gtb a b) (at level 70, no associativity) : Real_scope.

(** The floating-point literals of the source. *)
Definition zero : Real := Num 0.
Definition half : Real := Num (1 / 2).
Definition one : Real := Num 1.

(** ** Failures *)

Inductive error : Type :=
  | EmptyHandle       (* "empty Handle cannot be dereferenced" *)
  | IndexOutOfRange   (* array access outside the array *)
  | DanglingPointer.  (* an address that holds no object *)

Inductive result (A : Type) : Type :=
  | Ok (a : A)
  | Err (e : error).
Arguments Ok {A} a.
Arguments Err {A} e.

#[global] Instance result_ret : MRet result := fun A a => Ok a.
#[global] Instance result_bind : MBind result := fun A B f m =>
  match m with
  | Ok a => f a
  | Err e => Err e
  end.

(** ** Arrays and matrices *)

Definition Array := list Real.
Definition Matrix := list (list Real).

(** [x[i]] *)
Definition at_ (x : Array) (i : nat) : result Real :=
  match x !! i with
  | Some v => Ok v
  | None => Err IndexOutOfRange
  end.

(** ** Quotes, term structures and handles *)

Definition Time := Real.
Definition Rate := Real.
Definition Date := Z.

Inductive Compounding : Type :=
  | Simple
  | Compounded
  | Continuous
  | SimpleThenCompounded.

(** The part of the day-counter and yield-curve interfaces the process
    calls; their implementations are collaborators of this file.  A method
    is modelled by the value it returns: a lookup that throws inside a
    collaborator is outside this model, and every statement about a
    forward rate or a year fraction is about the value returned. *)
Record DayCounter : Type := {
  yearFraction : Date -> Date -> Time
}.

Record YieldTermStructure : Type := {
  forwardRate : Time -> Time -> Compounding -> Rate;
  dayCounter : DayCounter;
  referenceDate : Date
}.

(** A handle is empty or linked. *)
Definition Handle (T : Type) : Type := option T.

Definition deref {T : Type} (h : Handle T) : result T :=
  match h with
  | Some o => Ok o
  | None => Err EmptyHandle
  end.

(** Addresses of quote objects, and the store holding their values. *)
Definition Quote := positive.
Abbreviation Store := (gmap Quote Real).

(** [q->value()] for a quote object [q]. *)
Definition value (st : Store) (q : Quote) : result Real :=
  match st !! q with
  | Some v => Ok v
  | None => Err DanglingPointer
  end.

(** [SimpleQuote::setValue]: overwrites the value of an existing quote. *)
Definition setValue (q : Quote) (v : Real) (st : Store) : Store :=
  alter (fun _ => v) q st.

(** [h->value()] for a quote handle [h]. *)
Definition handle_value (st : Store) (h : Handle Quote) : result Real :=
  q ← deref h; value st q.

(** ** The process *)

Record HestonProcess : Type := {
  riskFreeRate_ : Handle YieldTermStructure;
  dividendYield_ : Handle YieldTermStructure;
  s0_ : Handle Quote;
  v0_ : Handle Quote;
  kappa_ : Handle Quote;
  theta_ : Handle Quote;
  sigma_ : Handle Quote;
  rho_ : Handle Quote
}.

Definition size (p : HestonProcess) : nat := 2.

Definition initialValues (p : HestonProcess) (st : Store) : result Array :=
  s0 ← handle_value st (s0_ p);
  v0 ← handle_value st (v0_ p);
  mret [s0; v0].

Definition drift (p : HestonProcess) (st : Store) (t : Time) (x : Array)
  : result Array :=
  x1 ← at_ x 1;
  let vol := if (x1 >? zero)%Real then std_sqrt x1 else zero in
  rf ← deref (riskFreeRate_ p);
  dv ← deref (dividendYield_ p);
  let tmp0 := (forwardRate rf t t Continuous
               - forwardRate dv t t Continuous
               - half * vol * vol)%Real in
  kappa ← handle_value st (kappa_ p);
  theta ← handle_value st (theta_ p);
  let tmp1 := (kappa * (theta - vol * vol))%Real in
  mret [tmp0; tmp1].

Definition diffusion (p : HestonProcess) (st : Store) (_ : Time) (x : Array)
  : result Matrix :=
  rho ← handle_value st (rho_ p);
  x1 ← at_ x 1;
  let sigma1 := if (x1 >? zero)%Real then std_sqrt x1 else zero in
  sigma ← handle_value st (sigma_ p);
  let sigma2 := (sigma * sigma1)%Real in
  mret [ [sigma1; zero];
         [(rho * sigma2)%Real; (std_sqrt (one - rho * rho) * sigma2)%Real] ].

Definition apply (p : HestonProcess) (x0 dx : Array) : result Array :=
  x00 ← at_ x0 0;
  dx0 ← at_ dx 0;
  let tmp0 := (x00 * std_exp dx0)%Real in
  x01 ← at_ x0 1;
  dx1 ← at_ dx 1;
  let tmp1 := (x01 + dx1)%Real in
  mret [tmp0; tmp1].

Definition time (p : HestonProcess) (d : Date) : result Time :=
  rf ← deref (riskFreeRate_ p);
  mret (yearFraction (dayCounter rf) (referenceDate rf) d).

(** The accessors return the handles themselves, not the values they
    currently link to. *)
Definition v0 (p : HestonProcess) : Handle Quote := v0_ p.
Definition rho (p : HestonProcess) : Handle Quote := rho_ p.
Definition kappa (p : HestonProcess) : Handle Quote := kappa_ p.
Definition theta (p : HestonProcess) : Handle Quote := theta_ p.
Definition sigma (p : HestonProcess) : Handle Quote := sigma_ p.
Definition s0 (p : HestonProcess) : Handle Quote := s0_ p.
Definition dividendYield (p : HestonProcess) : Handle YieldTermStructure :=
  dividendYield_ p.
Definition riskFreeRate (p : HestonProcess) : Handle YieldTermStructure :=
  riskFreeRate_ p.

(** [new SimpleQuote(v)]: a quote object at an address not yet in use. *)
Definition new_SimpleQuote (v : Real) (st : Store) : Quote * Store :=
  let q := fresh (dom st) in (q, <[q := v]> st).

(** The constructor.  It links the five parameter handles to new quotes
    holding the given numbers.  (It also registers the process as an
    observer of its eight handles; notification is outside the process
    primitives and is not modelled.) *)
Definition HestonProcess_new
    (riskFreeRate dividendYield : Handle YieldTermStructure)
    (s0 : Handle Quote) (v0 kappa theta sigma rho : Real) (st : Store)
  : HestonProcess * Store :=
  let '(qv0, st) := new_SimpleQuote v0 st in
  let '(qkappa, st) := new_SimpleQuote kappa st in
  let '(qtheta, st) := new_SimpleQuote theta st in
  let '(qsigma, st) := new_SimpleQuote sigma st in
  let '(qrho, st) := new_SimpleQuote rho st in
  ({| riskFreeRate_ := riskFreeRate;
      dividendYield_ := dividendYield;
      s0_ := s0;
      v0_ := Some qv0;
      kappa_ := Some qkappa;
      theta_ := Some qtheta;
      sigma_ := Some qsigma;
      rho_ := Some qrho |}, st).

(** ** A concrete market

    A flat curve (constant forward rate, actual/365 day count from day 0),
    a spot quote at address 1, and the process built on them with
    v0 = 0.04, kappa = 2, theta = 0.04, sigma = 0.3, rho = -0.6. *)

Definition flat_curve (r : Rate) : YieldTermStructure :=
  {| forwardRate := fun _ _ _ => r;
     dayCounter :=
       {| yearFraction := fun d1 d2 => Num (IZR (d2 - d1) / 365) |};
     referenceDate := 0%Z |}.

Definition spot_quote : Quote := 1%positive.
Definition market : Store := {[ spot_quote := Num 100 ]}.

Definition example : HestonProcess * Store :=
  HestonProcess_new (Some (flat_curve (Num 0.02))) (Some (flat_curve (Num 0)))
    (Some spot_quote) (Num 0.04) (Num 2) (Num 0.04) (Num 0.3) (Num (-0.6))
    market.

Definition process : HestonProcess := fst example.
Definition store : Store := snd example.

(** The same market with a correlation parameter outside [-1, 1]. *)
Definition example_rho2 : HestonProcess * Store :=
  HestonProcess_new (Some (flat_curve (Num 0.02))) (Some (flat_curve (Num 0)))
    (Some spot_quote) (Num 0.04) (Num 2) (Num 0.04) (Num 0.3) (Num 2)
    market.

(** ** The floored volatility, as the specification words it

    [floored x1 s]: [s] is the square root of [x1] if [x1 > 0], and [0]
    otherwise (a NaN is not greater than zero). *)
Definition floored (x1 : Real) (s : R) : Prop :=
  match x1 with
  | Num v => ((0 < v -> s = sqrt v) /\ (v <= 0 -> s = 0))%R
  | NaN => s = 0%R
  end.

(** [floored_variance x1]: the variance floored at zero, [max (x1, 0)]; a
    NaN is not greater than zero and is floored to [0] as well. *)
Definition floored_variance (x1 : Real) : R :=
  match x1 with
  | Num v => Rmax v 0
  | NaN => 0%R
  end.

(** * Properties *)

(** ** Arithmetic of [Real] *)

Section RealArith.
Implicit Types a b c : Real.
Local Open Scope Real_scope.

Lemma mul_assoc a b c : a * b * c = a * (b * c).
Proof.
  destruct a, b, c; simpl; try reflexivity.
  unfold mul; simpl. f_equal. apply Rmult_assoc.
Qed.

Lemma mul_one_r a : a * one = a.
Proof. destruct a; [|reflexivity]. unfold mul, one; simpl. f_equal. lra. Qed.

Lemma add_zero_r a : a + zero = a.
Proof. destruct a; [|reflexivity]. unfold add, zero; simpl. f_equal. lra. Qed.

Lemma std_exp_zero : std_exp zero = one.
Proof. unfold std_exp, zero, one. f_equal. apply exp_0. Qed.

Lemma gtb_zero_true (v : R) : (0 < v)%R -> (Num v >? zero) = true.
Proof. intros Hv. unfold gtb, zero. destruct (Rlt_dec 0 v); [reflexivity | contradiction]. Qed.

Lemma gtb_zero_false (v : R) : (v <= 0)%R -> (Num v >? zero) = false.
Proof. intros Hv. unfold gtb, zero. destruct (Rlt_dec 0 v); [lra | reflexivity]. Qed.

Lemma std_sqrt_nonneg (v : R) : (0 <= v)%R -> std_sqrt (Num v) = Num (sqrt v).
Proof. intros Hv. unfold std_sqrt. destruct (Rle_dec 0 v); [reflexivity | contradiction]. Qed.

Lemma std_sqrt_neg (v : R) : (v < 0)%R -> std_sqrt (Num v) = NaN.
Proof. intros Hv. unfold std_sqrt. destruct (Rle_dec 0 v); [lra | reflexivity]. Qed.

(** The expression [(x1 > 0.0) ? std::sqrt(x1) : 0.0] is always a number:
    the floored volatility. *)
Lemma floor_is_floored x1 :
  exists s : R,
    floored x1 s /\ (if x1 >? zero then std_sqrt x1 else zero) = Num s.
Proof.
  destruct x1 as [v|].
  - destruct (Rlt_dec 0 v) as [Hpos|Hneg].
    + exists (sqrt v). rewrite gtb_zero_true by assumption.
      rewrite std_sqrt_nonneg by lra. split; [|reflexivity].
      split; [reflexivity | lra].
    + exists 0%R. rewrite gtb_zero_false by lra. split; [|reflexivity].
      split; [lra | reflexivity].
  - exists 0%R. split; reflexivity.
Qed.

(** The square of the floored volatility is the variance floored at 0. *)
Lemma floored_square (v s : R) : floored (Num v) s -> (s * s = Rmax v 0)%R.
Proof.
  intros [Hpos Hneg]. destruct (Rlt_dec 0 v) as [Hv|Hv].
  - rewrite Hpos by assumption. rewrite sqrt_sqrt by lra.
    symmetry. apply Rmax_left. lra.
  - rewrite Hneg by lra. rewrite Rmax_right by lra. lra.
Qed.

End RealArith.

(** ** Reading the state vector *)

Lemma at_pair_0 (a b : Real) : at_ [a; b] 0 = Ok a.
Proof. reflexivity. Qed.

Lemma at_pair_1 (a b : Real) : at_ [a; b] 1 = Ok b.
Proof. reflexivity. Qed.

Lemma length_two (x : Array) : length x = 2 -> exists a b, x = [a; b].
Proof.
  destruct x as [|a [|b [|c x]]]; simpl; intros H; try discriminate.
  exists a, b. reflexivity.
Qed.

(** ** [apply] *)

(** On a two-component state and increment, [apply] multiplies the price
    by the exponential of the first increment and adds the second
    increment to the variance. *)
Lemma apply_pair p (x00 x01 dx0 dx1 : Real) :
  apply p [x00; x01] [dx0; dx1]
  = Ok [(x00 * std_exp dx0)%Real; (x01 + dx1)%Real].
Proof. reflexivity. Qed.




(** C7: for every two-component state [x0], [apply x0 [0, 0]] is [x0]. *)
Theorem apply_zero_increment p (x0 : Array) :
  length x0 = 2 -> apply p x0 [zero; zero] = Ok x0.
Proof.
  intros Hlen. destruct (length_two x0 Hlen) as (a & b & ->).
  rewrite apply_pair, std_exp_zero, mul_one_r, add_zero_r. reflexivity.
Qed.

Lemma apply_zero_increment_witness :
  apply process [Num 100; Num 0.04] [zero; zero] = Ok [Num 100; Num 0.04].
Proof. apply (apply_zero_increment process [Num 100; Num 0.04]). reflexivity. Defined.

(** ** [drift] *)

(** With both curves linked and [kappa], [theta] readable, [drift]
    succeeds on a two-component state with the value of its two
    assignments. *)
Lemma drift_pair p st t (x0 x1 : Real) rf dv (kappa theta : Real) :
  riskFreeRate_ p = Some rf ->
  dividendYield_ p = Some dv ->
  handle_value st (kappa_ p) = Ok kappa ->
  handle_value st (theta_ p) = Ok theta ->
  drift p st t [x0; x1]
  = let vol := if (x1 >? zero)%Real then std_sqrt x1 else zero in
    Ok [(forwardRate rf t t Continuous - forwardRate dv t t Continuous
         - half * vol * vol)%Real;
        (kappa * (theta - vol * vol))%Real].
Proof.
  intros Hrf Hdv Hk Hth. unfold drift.
  rewrite at_pair_1, Hrf, Hdv. simpl. rewrite Hk, Hth. reflexivity.
Qed.

(** C4: the price component of the drift is the risk-free forward rate
    over [t, t] minus the dividend forward rate over [t, t] minus
    [0.5 * vol^2], and the variance component is
    [kappa * (theta - vol^2)], where [vol] is the floored volatility. *)
Theorem drift_components p st t (x0 x1 : Real) rf dv (kappa theta : Real) :
  riskFreeRate_ p = Some rf ->
  dividendYield_ p = Some dv ->
  handle_value st (kappa_ p) = Ok kappa ->
  handle_value st (theta_ p) = Ok theta ->
  exists vol : R,
    floored x1 vol /\
    drift p st t [x0; x1]
    = Ok [(forwardRate rf t t Continuous - forwardRate dv t t Continuous
           - Num (0.5 * vol ^ 2))%Real;
          (kappa * (theta - Num (vol ^ 2)))%Real].
Proof.
  intros Hrf Hdv Hk Hth.
  destruct (floor_is_floored x1) as (vol & Hfl & Hvol).
  exists vol. split; [assumption|].
  rewrite (drift_pair p st t x0 x1 rf dv kappa theta) by assumption.
  cbv zeta. rewrite Hvol.
  replace (half * Num vol * Num vol)%Real with (Num (0.5 * vol ^ 2)).
  2:{ unfold half, mul, lift2. f_equal. lra. }
  replace (Num vol * Num vol)%Real with (Num (vol ^ 2)).
  2:{ unfold mul, lift2. f_equal. lra. }
  reflexivity.
Qed.

Lemma drift_components_witness :
  exists vol : R,
    floored (Num 0.04) vol /\
    drift process store (Num 1) [Num 100; Num 0.04]
    = Ok [(forwardRate (flat_curve (Num 0.02)) (Num 1) (Num 1) Continuous
           - forwardRate (flat_curve (Num 0)) (Num 1) (Num 1) Continuous
           - Num (0.5 * vol ^ 2))%Real;
          (Num 2 * (Num 0.04 - Num (vol ^ 2)))%Real].
Proof.
  apply (drift_components process store (Num 1) (Num 100) (Num 0.04)
           (flat_curve (Num 0.02)) (flat_curve (Num 0)) (Num 2) (Num 0.04));
    reflexivity.
Defined.

(** ** [diffusion] *)

(** With [rho] and [sigma] readable, [diffusion] succeeds on a
    two-component state with the value of its four assignments. *)
Lemma diffusion_pair p st t (x0 x1 rho sigma : Real) :
  handle_value st (rho_ p) = Ok rho ->
  handle_value st (sigma_ p) = Ok sigma ->
  diffusion p st t [x0; x1]
  = let sigma1 := if (x1 >? zero)%Real then std_sqrt x1 else zero in
    let sigma2 := (sigma * sigma1)%Real in
    Ok [ [sigma1; zero];
         [(rho * sigma2)%Real; (std_sqrt (one - rho * rho) * sigma2)%Real] ].
Proof.
  intros Hrho Hsigma. unfold diffusion.
  rewrite Hrho, at_pair_1. simpl. rewrite Hsigma. reflexivity.
Qed.

(** C3: [diffusion t x] is the matrix with rows [[sigma1, 0]] and
    [[rho * sigma * sigma1, sqrt (1 - rho^2) * sigma * sigma1]], where
    [sigma1] is the floored volatility and [rho], [sigma] are the current
    values of the correlation and vol-of-variance quotes. *)
Theorem diffusion_matrix p st t (x0 x1 rho sigma : Real) :
  handle_value st (rho_ p) = Ok rho ->
  handle_value st (sigma_ p) = Ok sigma ->
  exists sigma1 : R,
    floored x1 sigma1 /\
    diffusion p st t [x0; x1]
    = Ok [ [Num sigma1; Num 0];
           [(rho * sigma * Num sigma1)%Real;
            (std_sqrt (Num 1 - rho * rho) * sigma * Num sigma1)%Real] ].
Proof.
  intros Hrho Hsigma.
  destruct (floor_is_floored x1) as (sigma1 & Hfl & Hs1).
  exists sigma1. split; [assumption|].
  rewrite (diffusion_pair p st t x0 x1 rho sigma) by assumption.
  cbv zeta. rewrite Hs1, !mul_assoc. reflexivity.
Qed.

Lemma diffusion_matrix_witness :
  exists sigma1 : R,
    floored (Num 0.04) sigma1 /\
    diffusion process store (Num 1) [Num 100; Num 0.04]
    = Ok [ [Num sigma1; Num 0];
           [(Num (-0.6) * Num 0.3 * Num sigma1)%Real;
            (std_sqrt (Num 1 - Num (-0.6) * Num (-0.6)) * Num 0.3
             * Num sigma1)%Real] ].
Proof.
  apply (diffusion_matrix process store (Num 1) (Num 100) (Num 0.04)
           (Num (-0.6)) (Num 0.3));
    reflexivity.
Defined.

(** C5: for a correlation [rho] in [-1, 1], the second row of
    [diffusion t x] has squared norm [(sigma * sigma1)^2], where [sigma1]
    is the floored volatility. *)
Theorem diffusion_second_row_norm p st t (x0 x1 : Real) (rho : R) (sigma : Real) :
  (-1 <= rho <= 1)%R ->
  handle_value st (rho_ p) = Ok (Num rho) ->
  handle_value st (sigma_ p) = Ok sigma ->
  exists (sigma1 : R) (row0 : list Real) (m10 m11 : Real),
    floored x1 sigma1 /\
    diffusion p st t [x0; x1] = Ok [row0; [m10; m11]] /\
    (m10 * m10 + m11 * m11)%Real
    = ((sigma * Num sigma1) * (sigma * Num sigma1))%Real.
Proof.
  intros Hrange Hrho Hsigma.
  destruct (floor_is_floored x1) as (sigma1 & Hfl & Hs1).
  exists sigma1. do 3 eexists. split; [assumption|].
  rewrite (diffusion_pair p st t x0 x1 (Num rho) sigma) by assumption.
  cbv zeta. rewrite Hs1. split; [reflexivity|].
  assert (Hsq : (0 <= 1 - rho * rho)%R) by nra.
  replace (one - Num rho * Num rho)%Real with (Num (1 - rho * rho))
    by reflexivity.
  rewrite std_sqrt_nonneg by assumption.
  destruct sigma as [s|]; [|reflexivity].
  unfold mul, add, lift2. f_equal.
  pose proof (sqrt_sqrt _ Hsq) as Hroot.
  set (c := sqrt (1 - rho * rho)) in *.
  replace (c * (s * sigma1) * (c * (s * sigma1)))%R
    with ((c * c) * ((s * sigma1) * (s * sigma1)))%R by ring.
  rewrite Hroot. ring.
Qed.

Lemma diffusion_second_row_norm_witness :
  exists (sigma1 : R) (row0 : list Real) (m10 m11 : Real),
    floored (Num 0.04) sigma1 /\
    diffusion process store (Num 1) [Num 100; Num 0.04]
    = Ok [row0; [m10; m11]] /\
    (m10 * m10 + m11 * m11)%Real
    = ((Num 0.3 * Num sigma1) * (Num 0.3 * Num sigma1))%Real.
Proof.
  apply (diffusion_second_row_norm process store (Num 1) (Num 100) (Num 0.04)
           (-0.6)%R (Num 0.3));
    [lra | reflexivity | reflexivity].
Defined.

(** C9, as stated, fails when the correlation is outside [-1, 1]: with
    [rho = 2] the entry [M[1][1]] is [sqrt (1 - 4) * 0], which is NaN. *)
Lemma diffusion_rho2_not_zero :
  diffusion (fst example_rho2) (snd example_rho2) (Num 1) [Num 100; Num 0]
  = Ok [ [Num 0; Num 0]; [Num 0; NaN] ]
  /\ diffusion (fst example_rho2) (snd example_rho2) (Num 1) [Num 100; Num 0]
     <> Ok [ [Num 0; Num 0]; [Num 0; Num 0] ].
Proof.
  assert (Heq : diffusion (fst example_rho2) (snd example_rho2) (Num 1)
                  [Num 100; Num 0]
                = Ok [ [Num 0; Num 0]; [Num 0; NaN] ]).
  { rewrite (diffusion_pair _ _ _ _ _ (Num 2) (Num 0.3)) by reflexivity.
    cbv zeta. rewrite gtb_zero_false by lra.
    replace (one - Num 2 * Num 2)%Real with (Num (1 - 2 * 2)) by reflexivity.
    rewrite std_sqrt_neg by lra.
    unfold zero, mul, lift2.
    replace (2 * (0.3 * 0))%R with 0%R by lra. reflexivity. }
  split; [exact Heq|]. rewrite Heq. discriminate.
Qed.

(** C9, as amended: when the variance component is not positive, the
    correlation is in [-1, 1] and the vol-of-variance is a number,
    [diffusion t x] is the all-zero matrix. *)
Theorem diffusion_zero_at_nonpositive_variance p st t (x0 : Real)
    (v rho sigma : R) :
  (v <= 0)%R ->
  (-1 <= rho <= 1)%R ->
  handle_value st (rho_ p) = Ok (Num rho) ->
  handle_value st (sigma_ p) = Ok (Num sigma) ->
  diffusion p st t [x0; Num v] = Ok [ [Num 0; Num 0]; [Num 0; Num 0] ].
Proof.
  intros Hv Hrange Hrho Hsigma.
  rewrite (diffusion_pair p st t x0 (Num v) (Num rho) (Num sigma))
    by assumption.
  cbv zeta. rewrite gtb_zero_false by assumption.
  replace (one - Num rho * Num rho)%Real with (Num (1 - rho * rho))
    by reflexivity.
  rewrite std_sqrt_nonneg by nra.
  unfold zero, mul, lift2.
  replace (rho * (sigma * 0))%R with 0%R by lra.
  replace (sqrt (1 - rho * rho) * (sigma * 0))%R with 0%R by lra.
  reflexivity.
Qed.

Lemma diffusion_zero_at_nonpositive_variance_witness :
  diffusion process store (Num 1) [Num 100; Num (-0.01)]
  = Ok [ [Num 0; Num 0]; [Num 0; Num 0] ].
Proof.
  apply (diffusion_zero_at_nonpositive_variance process store (Num 1)
           (Num 100) (-0.01)%R (-0.6)%R 0.3%R);
    [lra | lra | reflexivity | reflexivity].
Defined.

(** ** The variance floor *)

Lemma sub_zero_square (a : Real) : (a - zero * zero)%Real = a.
Proof. destruct a; [|reflexivity]. unfold zero, sub, mul, lift2. f_equal. lra. Qed.

(** C1: when the variance component is not positive, the variance
    component of the drift is [kappa * theta] and the first row of the
    diffusion matrix is zero; [apply] itself does not floor the variance. *)
Theorem floor_at_nonpositive_variance p st t (x0 : Real) (v : R) rf dv
    (kappa theta rho sigma : Real) :
  (v <= 0)%R ->
  riskFreeRate_ p = Some rf ->
  dividendYield_ p = Some dv ->
  handle_value st (kappa_ p) = Ok kappa ->
  handle_value st (theta_ p) = Ok theta ->
  handle_value st (rho_ p) = Ok rho ->
  handle_value st (sigma_ p) = Ok sigma ->
  (exists d0, drift p st t [x0; Num v] = Ok [d0; (kappa * theta)%Real])
  /\ (exists m10 m11,
        diffusion p st t [x0; Num v] = Ok [ [Num 0; Num 0]; [m10; m11] ])
  /\ (forall (d0 : Real) (d1 : R),
        apply p [x0; Num v] [d0; Num d1]
        = Ok [(x0 * std_exp d0)%Real; Num (v + d1)]).
Proof.
  intros Hv Hrf Hdv Hk Hth Hrho Hsigma. split; [|split].
  - rewrite (drift_pair p st t x0 (Num v) rf dv kappa theta) by assumption.
    cbv zeta. rewrite gtb_zero_false by assumption.
    rewrite sub_zero_square. eexists. reflexivity.
  - rewrite (diffusion_pair p st t x0 (Num v) rho sigma) by assumption.
    cbv zeta. rewrite gtb_zero_false by assumption.
    do 2 eexists. reflexivity.
  - intros d0 d1. apply apply_pair.
Qed.

Lemma floor_at_nonpositive_variance_witness :
  (exists d0, drift process store (Num 1) [Num 100; Num (-0.01)]
              = Ok [d0; (Num 2 * Num 0.04)%Real])
  /\ (exists m10 m11,
        diffusion process store (Num 1) [Num 100; Num (-0.01)]
        = Ok [ [Num 0; Num 0]; [m10; m11] ])
  /\ (forall (d0 : Real) (d1 : R),
        apply process [Num 100; Num (-0.01)] [d0; Num d1]
        = Ok [(Num 100 * std_exp d0)%Real; Num (-0.01 + d1)]).
Proof.
  apply (floor_at_nonpositive_variance process store (Num 1) (Num 100)
           (-0.01)%R (flat_curve (Num 0.02)) (flat_curve (Num 0))
           (Num 2) (Num 0.04) (Num (-0.6)) (Num 0.3));
    first [lra | reflexivity].
Defined.

(** ** Independence from the price and from time *)

(** C10: [drift] and [diffusion] read only the variance component of the
    state, and [diffusion] does not read its time argument. *)
Theorem drift_diffusion_ignore_price p st t t' (x y : Array) :
  x !! 1 = y !! 1 ->
  drift p st t x = drift p st t y
  /\ diffusion p st t x = diffusion p st t y
  /\ diffusion p st t x = diffusion p st t' x.
Proof.
  intros Hxy. unfold drift, diffusion, at_. rewrite Hxy.
  repeat split; reflexivity.
Qed.

Lemma drift_diffusion_ignore_price_witness :
  drift process store (Num 1) [Num 100; Num 0.04]
  = drift process store (Num 1) [Num 50; Num 0.04]
  /\ diffusion process store (Num 1) [Num 100; Num 0.04]
     = diffusion process store (Num 1) [Num 50; Num 0.04]
  /\ diffusion process store (Num 1) [Num 100; Num 0.04]
     = diffusion process store (Num 2) [Num 100; Num 0.04].
Proof.
  apply (drift_diffusion_ignore_price process store (Num 1) (Num 2)
           [Num 100; Num 0.04] [Num 50; Num 0.04]).
  reflexivity.
Defined.

(** ** [time] *)

(** C8: [time d] is the year fraction from the risk-free curve's
    reference date to [d] under the risk-free curve's day counter; a
    process with the same risk-free handle maps dates to the same times,
    whatever its dividend curve. *)
Theorem time_year_fraction p rf (d : Date) :
  riskFreeRate_ p = Some rf ->
  time p d = Ok (yearFraction (dayCounter rf) (referenceDate rf) d)
  /\ forall p', riskFreeRate_ p' = riskFreeRate_ p -> time p' d = time p d.
Proof.
  intros Hrf. split.
  - unfold time. rewrite Hrf. reflexivity.
  - intros p' Hsame. unfold time. rewrite Hsame. reflexivity.
Qed.

Lemma time_year_fraction_witness :
  time process 365%Z
  = Ok (yearFraction (dayCounter (flat_curve (Num 0.02)))
          (referenceDate (flat_curve (Num 0.02))) 365%Z)
  /\ forall p', riskFreeRate_ p' = riskFreeRate_ process ->
                time p' 365%Z = time process 365%Z.
Proof.
  apply (time_year_fraction process (flat_curve (Num 0.02)) 365%Z).
  reflexivity.
Defined.

(** ** [initialValues] *)

Lemma value_setValue_eq (st : Store) q (old v : Real) :
  st !! q = Some old -> value (setValue q v st) q = Ok v.
Proof.
  intros Hq. unfold value, setValue. rewrite lookup_alter_eq, Hq. reflexivity.
Qed.

Lemma value_setValue_ne (st : Store) q q' (v : Real) :
  q <> q' -> value (setValue q v st) q' = value st q'.
Proof.
  intros Hne. unfold value, setValue. rewrite lookup_alter_ne by assumption.
  reflexivity.
Qed.

(** Each call reads the two quotes in the store it is given. *)
Lemma initialValues_reads p (st : Store) (spot v : Real) :
  handle_value st (s0_ p) = Ok spot ->
  handle_value st (v0_ p) = Ok v ->
  initialValues p st = Ok [spot; v].
Proof. intros Hs Hv. unfold initialValues. rewrite Hs, Hv. reflexivity. Qed.

(** C6: [initialValues] returns the spot and the v0 parameter as they
    are when it is called: after the v0 quote is set to [v1], the next
    call returns [[spot, v1]]. *)
Theorem initialValues_live p (st : Store) qs qv (spot old v1 : Real) :
  s0_ p = Some qs ->
  v0_ p = Some qv ->
  qs <> qv ->
  st !! qs = Some spot ->
  st !! qv = Some old ->
  initialValues p st = Ok [spot; old]
  /\ initialValues p (setValue qv v1 st) = Ok [spot; v1].
Proof.
  intros Hs0 Hv0 Hne Hspot Hold. split.
  - apply initialValues_reads; unfold handle_value, value.
    + rewrite Hs0. simpl. rewrite Hspot. reflexivity.
    + rewrite Hv0. simpl. rewrite Hold. reflexivity.
  - apply initialValues_reads; unfold handle_value.
    + rewrite Hs0. simpl. rewrite value_setValue_ne by congruence.
      unfold value. rewrite Hspot. reflexivity.
    + rewrite Hv0. simpl. apply (value_setValue_eq st qv old v1 Hold).
Qed.

Lemma initialValues_live_witness :
  initialValues process store = Ok [Num 100; Num 0.04]
  /\ initialValues process (setValue 2%positive (Num 0.09) store)
     = Ok [Num 100; Num 0.09].
Proof.
  apply (initialValues_live process store 1%positive 2%positive
           (Num 100) (Num 0.04) (Num 0.09));
    first [reflexivity | discriminate].
Defined.

(** ** The concrete market, end to end *)

Example example_initialValues :
  initialValues process store = Ok [Num 100; Num 0.04].
Proof. reflexivity. Qed.

(** At the long-run variance the drift vanishes in both components. *)
Example example_drift_equilibrium :
  drift process store (Num 1) [Num 100; Num 0.04] = Ok [Num 0; Num 0].
Proof.
  rewrite (drift_pair _ _ _ _ _ (flat_curve (Num 0.02)) (flat_curve (Num 0))
             (Num 2) (Num 0.04)) by reflexivity.
  cbv zeta. rewrite gtb_zero_true by lra. rewrite std_sqrt_nonneg by lra.
  assert (Hsq : (sqrt 0.04 * sqrt 0.04 = 0.04)%R) by (apply sqrt_sqrt; lra).
  unfold half, flat_curve, sub, mul, lift2; simpl.
  set (s := sqrt 0.04) in *.
  replace (0.02 - 0 - 1 / 2 * s * s)%R with 0%R by lra.
  replace (2 * (0.04 - s * s))%R with 0%R by lra.
  reflexivity.
Qed.

Example example_size : size process = 2.
Proof. reflexivity. Qed.

(** * Further properties *)

(** ** Allocation of the parameter quotes *)

#[local] Set Warnings "-clear-no-such-hyp".

Lemma new_SimpleQuote_fresh (v : Real) (st : Store) :
  (new_SimpleQuote v st).1 ∉ dom st.
Proof. unfold new_SimpleQuote. simpl. apply is_fresh. Qed.

(** What the constructor establishes: five pairwise distinct addresses,
    none of them in use before, holding the five numbers; the handles of
    the process; and a store that extends the one it started from. *)
Lemma HestonProcess_new_spec rf dv s0h (a b c d e : Real) (st : Store) :
  exists (q1 q2 q3 q4 q5 : Quote) (st' : Store),
    HestonProcess_new rf dv s0h a b c d e st
    = ({| riskFreeRate_ := rf; dividendYield_ := dv; s0_ := s0h;
          v0_ := Some q1; kappa_ := Some q2; theta_ := Some q3;
          sigma_ := Some q4; rho_ := Some q5 |}, st')
    /\ NoDup [q1; q2; q3; q4; q5]
    /\ (forall q, q ∈ [q1; q2; q3; q4; q5] -> st !! q = None)
    /\ (forall q v, st !! q = Some v -> st' !! q = Some v)
    /\ st' !! q1 = Some a /\ st' !! q2 = Some b /\ st' !! q3 = Some c
    /\ st' !! q4 = Some d /\ st' !! q5 = Some e.
Proof.
  unfold HestonProcess_new, new_SimpleQuote.
  set (q1 := fresh (dom st)). set (st1 := <[q1 := a]> st).
  set (q2 := fresh (dom st1)). set (st2 := <[q2 := b]> st1).
  set (q3 := fresh (dom st2)). set (st3 := <[q3 := c]> st2).
  set (q4 := fresh (dom st3)). set (st4 := <[q4 := d]> st3).
  set (q5 := fresh (dom st4)). set (st5 := <[q5 := e]> st4).
  assert (H1 : q1 ∉ dom st) by apply is_fresh.
  assert (H2 : q2 ∉ dom st1) by apply is_fresh.
  assert (H3 : q3 ∉ dom st2) by apply is_fresh.
  assert (H4 : q4 ∉ dom st3) by apply is_fresh.
  assert (H5 : q5 ∉ dom st4) by apply is_fresh.
  unfold st4 in H5. unfold st3 in H4, H5. unfold st2 in H3, H4, H5.
  unfold st1 in H2, H3, H4, H5. rewrite !dom_insert_L in *.
  assert (Hdistinct : NoDup [q1; q2; q3; q4; q5]).
  { repeat (apply NoDup_cons; split); [set_solver.. | apply NoDup_nil_2]. }
  assert (Hnew : forall q, q ∈ [q1; q2; q3; q4; q5] -> st !! q = None).
  { intros q Hq. apply not_elem_of_dom. set_solver. }
  exists q1, q2, q3, q4, q5, st5. split; [reflexivity|].
  split; [exact Hdistinct|]. split; [exact Hnew|].
  assert (Hne12 : q1 <> q2) by set_solver.
  assert (Hne13 : q1 <> q3) by set_solver.
  assert (Hne14 : q1 <> q4) by set_solver.
  assert (Hne15 : q1 <> q5) by set_solver.
  assert (Hne23 : q2 <> q3) by set_solver.
  assert (Hne24 : q2 <> q4) by set_solver.
  assert (Hne25 : q2 <> q5) by set_solver.
  assert (Hne34 : q3 <> q4) by set_solver.
  assert (Hne35 : q3 <> q5) by set_solver.
  assert (Hne45 : q4 <> q5) by set_solver.
  split.
  { intros q v Hq.
    assert (Hin : q ∈ dom st) by (apply elem_of_dom; eauto).
    unfold st5, st4, st3, st2, st1.
    rewrite !lookup_insert_ne by set_solver. exact Hq. }
  unfold st5, st4, st3, st2, st1.
  repeat split; simplify_map_eq; reflexivity.
Qed.

(** X1: reading the five parameter handles of a newly constructed process,
    through its accessors, gives back the five numbers passed to the
    constructor; the curve and spot accessors give back the handles passed
    to it. *)
Theorem constructor_reads rf dv s0h (a b c d e : Real) (st : Store) :
  let ps := HestonProcess_new rf dv s0h a b c d e st in
  handle_value ps.2 (v0 ps.1) = Ok a
  /\ handle_value ps.2 (kappa ps.1) = Ok b
  /\ handle_value ps.2 (theta ps.1) = Ok c
  /\ handle_value ps.2 (sigma ps.1) = Ok d
  /\ handle_value ps.2 (rho ps.1) = Ok e
  /\ riskFreeRate ps.1 = rf
  /\ dividendYield ps.1 = dv
  /\ s0 ps.1 = s0h.
Proof.
  destruct (HestonProcess_new_spec rf dv s0h a b c d e st)
    as (q1 & q2 & q3 & q4 & q5 & st' & -> & _ & _ & _ & L1 & L2 & L3 & L4 & L5).
  cbv zeta. unfold v0, kappa, theta, sigma, rho, handle_value, value. simpl.
  rewrite L1, L2, L3, L4, L5. repeat split; reflexivity.
Qed.

(** X2: construction leaves every quote already in the store as it was,
    so a spot handle that read [spot] before still does, and
    [initialValues] on the new process returns [[spot, v0]] for the [v0]
    passed to the constructor. *)
Theorem constructor_initialValues rf dv s0h (spot a b c d e : Real)
    (st : Store) :
  handle_value st s0h = Ok spot ->
  let ps := HestonProcess_new rf dv s0h a b c d e st in
  (forall q v, st !! q = Some v -> ps.2 !! q = Some v)
  /\ handle_value ps.2 (s0 ps.1) = Ok spot
  /\ initialValues ps.1 ps.2 = Ok [spot; a].
Proof.
  intros Hspot.
  destruct (HestonProcess_new_spec rf dv s0h a b c d e st)
    as (q1 & q2 & q3 & q4 & q5 & st' & -> & _ & _ & Hkeep & L1 & _).
  cbv zeta. simpl.
  assert (Hspot' : handle_value st' s0h = Ok spot).
  { destruct s0h as [qs|]; [|discriminate]. unfold handle_value, value in *.
    simpl in *. destruct (st !! qs) as [v|] eqn:Hqs; [|discriminate].
    rewrite (Hkeep qs v Hqs). exact Hspot. }
  split; [exact Hkeep|]. split; [exact Hspot'|].
  unfold initialValues. simpl. rewrite Hspot'. simpl.
  unfold handle_value, value. simpl. rewrite L1. reflexivity.
Qed.

Lemma constructor_initialValues_witness :
  (forall q v, market !! q = Some v -> store !! q = Some v)
  /\ handle_value store (s0 process) = Ok (Num 100)
  /\ initialValues process store = Ok [Num 100; Num 0.04].
Proof.
  apply (constructor_initialValues (Some (flat_curve (Num 0.02)))
           (Some (flat_curve (Num 0))) (Some spot_quote) (Num 100)
           (Num 0.04) (Num 2) (Num 0.04) (Num 0.3) (Num (-0.6)) market).
  reflexivity.
Defined.

(** ** Which quotes each primitive reads *)

Lemma handle_value_setValue_ne (st : Store) q q' (v : Real) :
  q <> q' ->
  handle_value (setValue q v st) (Some q') = handle_value st (Some q').
Proof. intros Hne. unfold handle_value. simpl. apply value_setValue_ne, Hne. Qed.

Lemma handle_value_setValue_eq (st : Store) q (old v : Real) :
  st !! q = Some old -> handle_value (setValue q v st) (Some q) = Ok v.
Proof. intros Hq. unfold handle_value. simpl. apply (value_setValue_eq st q old v Hq). Qed.

(** [drift] reads the store only through [kappa_] and [theta_]. *)
Lemma drift_store_agree p (st st' : Store) t x :
  handle_value st (kappa_ p) = handle_value st' (kappa_ p) ->
  handle_value st (theta_ p) = handle_value st' (theta_ p) ->
  drift p st t x = drift p st' t x.
Proof. intros Hk Hth. unfold drift. rewrite Hk, Hth. reflexivity. Qed.

(** [diffusion] reads the store only through [rho_] and [sigma_]. *)
Lemma diffusion_store_agree p (st st' : Store) t x :
  handle_value st (rho_ p) = handle_value st' (rho_ p) ->
  handle_value st (sigma_ p) = handle_value st' (sigma_ p) ->
  diffusion p st t x = diffusion p st' t x.
Proof. intros Hrho Hsigma. unfold diffusion. rewrite Hrho, Hsigma. reflexivity. Qed.

(** X3: the five parameter quotes of a newly constructed process are five
    distinct objects, none of which was in the store before.  Setting any
    one of them is read back through its own handle and leaves what the
    other four handles read unchanged.  In particular setting [v0] changes
    neither [drift] nor [diffusion]; setting [sigma] or [rho] does not
    change [drift]; setting [kappa] or [theta] does not change
    [diffusion]. *)
Theorem constructed_parameters_separate rf dv s0h (a b c d e : Real)
    (st : Store) :
  let ps := HestonProcess_new rf dv s0h a b c d e st in
  exists qv0 qkappa qtheta qsigma qrho : Quote,
    v0 ps.1 = Some qv0 /\ kappa ps.1 = Some qkappa
    /\ theta ps.1 = Some qtheta /\ sigma ps.1 = Some qsigma
    /\ rho ps.1 = Some qrho
    /\ NoDup [qv0; qkappa; qtheta; qsigma; qrho]
    /\ (forall q, q ∈ [qv0; qkappa; qtheta; qsigma; qrho] -> st !! q = None)
    /\ (forall (q q' : Quote) (v1 : Real),
          q ∈ [qv0; qkappa; qtheta; qsigma; qrho] ->
          q' ∈ [qv0; qkappa; qtheta; qsigma; qrho] ->
          handle_value (setValue q v1 ps.2) (Some q')
          = if decide (q = q') then Ok v1 else handle_value ps.2 (Some q'))
    /\ forall (v1 : Real) (t : Time) (x : Array),
         handle_value (setValue qv0 v1 ps.2) (v0 ps.1) = Ok v1
         /\ drift ps.1 (setValue qv0 v1 ps.2) t x = drift ps.1 ps.2 t x
         /\ diffusion ps.1 (setValue qv0 v1 ps.2) t x
            = diffusion ps.1 ps.2 t x
         /\ drift ps.1 (setValue qsigma v1 ps.2) t x = drift ps.1 ps.2 t x
         /\ drift ps.1 (setValue qrho v1 ps.2) t x = drift ps.1 ps.2 t x
         /\ diffusion ps.1 (setValue qkappa v1 ps.2) t x
            = diffusion ps.1 ps.2 t x
         /\ diffusion ps.1 (setValue qtheta v1 ps.2) t x
            = diffusion ps.1 ps.2 t x.
Proof.
  destruct (HestonProcess_new_spec rf dv s0h a b c d e st)
    as (q1 & q2 & q3 & q4 & q5 & st' & -> & Hnd & Hnew & _
        & L1 & L2 & L3 & L4 & L5).
  cbv zeta. simpl. exists q1, q2, q3, q4, q5.
  do 5 (split; [reflexivity|]).
  split; [exact Hnd|]. split; [exact Hnew|].
  assert (Hlive : forall q, q ∈ [q1; q2; q3; q4; q5] -> is_Some (st' !! q)).
  { intros q Hq. repeat (apply elem_of_cons in Hq as [-> | Hq]; [eauto|]).
    apply elem_of_nil in Hq. contradiction. }
  split.
  { intros q q' v1 Hq Hq'. destruct (decide (q = q')) as [<- | Hne].
    - destruct (Hlive q Hq) as [old Hold].
      apply (handle_value_setValue_eq st' q old v1 Hold).
    - apply handle_value_setValue_ne, Hne. }
  apply NoDup_cons in Hnd as [N1 Hnd]. apply NoDup_cons in Hnd as [N2 Hnd].
  apply NoDup_cons in Hnd as [N3 Hnd]. apply NoDup_cons in Hnd as [N4 _].
  assert (Hne12 : q1 <> q2) by set_solver.
  assert (Hne13 : q1 <> q3) by set_solver.
  assert (Hne14 : q1 <> q4) by set_solver.
  assert (Hne15 : q1 <> q5) by set_solver.
  assert (Hne23 : q2 <> q3) by set_solver.
  assert (Hne24 : q2 <> q4) by set_solver.
  assert (Hne25 : q2 <> q5) by set_solver.
  assert (Hne34 : q3 <> q4) by set_solver.
  assert (Hne35 : q3 <> q5) by set_solver.
  intros v1 t x. unfold v0. simpl.
  split; [apply (handle_value_setValue_eq st' q1 a v1 L1)|].
  repeat split;
    (apply drift_store_agree || apply diffusion_store_agree);
    simpl; apply handle_value_setValue_ne; congruence.
Qed.

(** X4: on a newly constructed process, [diffusion] on a two-component
    state returns the matrix built from the [sigma] and [rho] passed to the
    constructor, whatever the curve and spot handles are; and when the two
    curves are linked and their forward-rate lookups over [t, t] return [r]
    and [q], [drift] returns [[r - q - 0.5 * vol * vol,
    kappa * (theta - vol * vol)]] with the [kappa] and [theta] passed to
    the constructor. *)
Theorem constructed_drift_diffusion rfh dvh s0h (a b c d e : Real)
    (st : Store) (t : Time) (x0 x1 : Real) :
  let ps := HestonProcess_new rfh dvh s0h a b c d e st in
  let vol := if (x1 >? zero)%Real then std_sqrt x1 else zero in
  diffusion ps.1 ps.2 t [x0; x1]
  = Ok [ [vol; zero];
         [(e * (d * vol))%Real; (std_sqrt (one - e * e) * (d * vol))%Real] ]
  /\ forall rf dv (r q : Rate),
       rfh = Some rf -> dvh = Some dv ->
       forwardRate rf t t Continuous = r ->
       forwardRate dv t t Continuous = q ->
       drift ps.1 ps.2 t [x0; x1]
       = Ok [(r - q - half * vol * vol)%Real; (b * (c - vol * vol))%Real].
Proof.
  destruct (HestonProcess_new_spec rfh dvh s0h a b c d e st)
    as (q1 & q2 & q3 & q4 & q5 & st' & -> & _ & _ & _ & L1 & L2 & L3 & L4 & L5).
  cbv zeta. simpl. split.
  - apply diffusion_pair; unfold handle_value, value; simpl.
    + rewrite L5. reflexivity.
    + rewrite L4. reflexivity.
  - intros rf dv r q -> -> <- <-.
    apply drift_pair; try reflexivity; unfold handle_value, value; simpl.
    + rewrite L2. reflexivity.
    + rewrite L3. reflexivity.
Qed.

Lemma constructed_drift_diffusion_witness :
  drift process store (Num 1) [Num 100; Num (-0.01)]
  = Ok [(Num 0.02 - Num 0 - half * zero * zero)%Real;
        (Num 2 * (Num 0.04 - zero * zero))%Real].
Proof.
  destruct (constructed_drift_diffusion (Some (flat_curve (Num 0.02)))
              (Some (flat_curve (Num 0))) (Some spot_quote)
              (Num 0.04) (Num 2) (Num 0.04) (Num 0.3) (Num (-0.6)) market
              (Num 1) (Num 100) (Num (-0.01))) as [_ Hdrift].
  rewrite (gtb_zero_false (-0.01)) in Hdrift by lra.
  exact (Hdrift _ _ (Num 0.02) (Num 0) eq_refl eq_refl eq_refl eq_refl).
Defined.

(** ** Algebra of [apply] *)

Lemma add_assoc (a b c : Real) : (a + b + c)%Real = (a + (b + c))%Real.
Proof.
  destruct a, b, c; try reflexivity.
  unfold add, lift2. f_equal. apply Rplus_assoc.
Qed.

Lemma std_exp_add (a b : Real) :
  std_exp (a + b) = (std_exp a * std_exp b)%Real.
Proof.
  destruct a, b; try reflexivity.
  unfold std_exp, add, mul, lift2. f_equal. apply exp_plus.
Qed.

(** X5: two steps compose into one: applying [dx] and then [dy] to a
    two-component state is applying their componentwise sum. *)
Theorem apply_compose p (x00 x01 dx0 dx1 dy0 dy1 : Real) :
  (y ← apply p [x00; x01] [dx0; dx1]; apply p y [dy0; dy1])
  = apply p [x00; x01] [(dx0 + dy0)%Real; (dx1 + dy1)%Real].
Proof.
  rewrite !apply_pair. simpl. rewrite apply_pair.
  rewrite std_exp_add, mul_assoc, add_assoc. reflexivity.
Qed.

(** X6: a step is undone by the opposite step: applying [[d0, d1]] and
    then [[-d0, -d1]] gives the state back. *)
Theorem apply_opposite p (x00 x01 : Real) (d0 d1 : R) :
  (y ← apply p [x00; x01] [Num d0; Num d1];
   apply p y [Num (- d0); Num (- d1)])
  = Ok [x00; x01].
Proof.
  rewrite apply_pair. simpl. rewrite apply_pair.
  destruct x00 as [a|], x01 as [v|]; unfold std_exp, mul, add, lift2;
    repeat f_equal;
    try (rewrite Rmult_assoc, <- exp_plus;
         replace (d0 + - d0)%R with 0%R by lra; rewrite exp_0; lra);
    try lra.
Qed.

(** X7, over exact real arithmetic: [apply] keeps the sign of the price.
    With [exp] the real exponential, the new price [p * exp d0] is
    positive, zero or negative exactly when the old one is. *)
Theorem apply_price_sign p (a d : R) (x01 dx1 : Real) :
  exists y : R,
    apply p [Num a; x01] [Num d; dx1] = Ok [Num y; (x01 + dx1)%Real]
    /\ ((0 < y)%R <-> (0 < a)%R)
    /\ (y = 0%R <-> a = 0%R)
    /\ ((y < 0)%R <-> (a < 0)%R).
Proof.
  exists (a * exp d)%R. split; [apply apply_pair|].
  pose proof (exp_pos d) as He. repeat split; intros H; nra.
Qed.

(** ** Dimensions *)

(** X8: every array a primitive returns has [size ()] components, and the
    diffusion matrix has [size ()] rows of [size ()] entries, whatever the
    arguments are. *)
Theorem results_have_size p (st : Store) (t : Time) (x x0 dx : Array) :
  (forall y, initialValues p st = Ok y -> length y = size p)
  /\ (forall y, drift p st t x = Ok y -> length y = size p)
  /\ (forall m, diffusion p st t x = Ok m ->
        length m = size p /\ Forall (fun row => length row = size p) m)
  /\ (forall y, apply p x0 dx = Ok y -> length y = size p).
Proof.
  unfold size. repeat split.
  - intros y. unfold initialValues.
    destruct (handle_value st (s0_ p)); simpl; [|discriminate].
    destruct (handle_value st (v0_ p)); simpl; [|discriminate].
    intros [= <-]. reflexivity.
  - intros y. unfold drift.
    destruct (at_ x 1); simpl; [|discriminate].
    destruct (deref (riskFreeRate_ p)); simpl; [|discriminate].
    destruct (deref (dividendYield_ p)); simpl; [|discriminate].
    destruct (handle_value st (kappa_ p)); simpl; [|discriminate].
    destruct (handle_value st (theta_ p)); simpl; [|discriminate].
    intros [= <-]. reflexivity.
  - revert H. unfold diffusion.
    destruct (handle_value st (rho_ p)); simpl; [|discriminate].
    destruct (at_ x 1); simpl; [|discriminate].
    destruct (handle_value st (sigma_ p)); simpl; [|discriminate].
    intros [= <-]. reflexivity.
  - revert H. unfold diffusion.
    destruct (handle_value st (rho_ p)); simpl; [|discriminate].
    destruct (at_ x 1); simpl; [|discriminate].
    destruct (handle_value st (sigma_ p)); simpl; [|discriminate].
    intros [= <-]. repeat constructor.
  - intros y. unfold apply.
    destruct (at_ x0 0); simpl; [|discriminate].
    destruct (at_ dx 0); simpl; [|discriminate].
    destruct (at_ x0 1); simpl; [|discriminate].
    destruct (at_ dx 1); simpl; [|discriminate].
    intros [= <-]. reflexivity.
Qed.

Lemma results_have_size_witness :
  length [Num 100; Num 0.04] = size process.
Proof.
  destruct (results_have_size process store (Num 1) [Num 100; Num 0.04]
              [Num 100; Num 0.04] [zero; zero]) as [Hinit _].
  apply Hinit. reflexivity.
Defined.

(** ** Full truncation *)

Lemma floored_variance_square (x1 : Real) (s : R) :
  floored x1 s -> (s * s)%R = floored_variance x1.
Proof.
  destruct x1 as [v|]; simpl.
  - apply floored_square.
  - intros ->. lra.
Qed.

(** X9, over exact real arithmetic (where the square of the square root
    of a positive variance is that variance): with numbers for the two
    forward rates and for [kappa] and [theta], the drift is made of
    numbers for every state, also when the variance is negative or NaN:
    it is [[r - q - max (x1, 0) / 2, kappa * (theta - max (x1, 0))]]. *)
Theorem drift_full_truncation p (st : Store) (t : Time) (x0 x1 : Real)
    rf dv (r q k th : R) :
  riskFreeRate_ p = Some rf ->
  dividendYield_ p = Some dv ->
  forwardRate rf t t Continuous = Num r ->
  forwardRate dv t t Continuous = Num q ->
  handle_value st (kappa_ p) = Ok (Num k) ->
  handle_value st (theta_ p) = Ok (Num th) ->
  drift p st t [x0; x1]
  = Ok [Num (r - q - floored_variance x1 / 2);
        Num (k * (th - floored_variance x1))].
Proof.
  intros Hrf Hdv Hr Hq Hk Hth.
  rewrite (drift_pair p st t x0 x1 rf dv (Num k) (Num th)) by assumption.
  cbv zeta. rewrite Hr, Hq.
  destruct (floor_is_floored x1) as (s & Hfl & ->).
  rewrite <- (floored_variance_square x1 s Hfl).
  unfold half, sub, mul, lift2.
  replace (r - q - 1 / 2 * s * s)%R with (r - q - s * s / 2)%R by lra.
  reflexivity.
Qed.

Lemma drift_full_truncation_witness :
  drift process store (Num 1) [Num 100; Num (-0.01)]
  = Ok [Num (0.02 - 0 - floored_variance (Num (-0.01)) / 2);
        Num (2 * (0.04 - floored_variance (Num (-0.01))))].
Proof.
  apply (drift_full_truncation process store (Num 1) (Num 100) (Num (-0.01))
           (flat_curve (Num 0.02)) (flat_curve (Num 0)) 0.02%R 0%R 2%R 0.04%R);
    reflexivity.
Defined.

(** X10: a variance that is not positive, or NaN, is treated exactly as
    the variance zero by [drift] and by [diffusion], whatever the price
    component is and whether or not the call succeeds. *)
Theorem nonpositive_variance_as_zero p (st : Store) (t : Time)
    (x0 y0 x1 : Real) :
  x1 = NaN \/ (exists v : R, x1 = Num v /\ (v <= 0)%R) ->
  drift p st t [x0; x1] = drift p st t [y0; zero]
  /\ diffusion p st t [x0; x1] = diffusion p st t [y0; zero].
Proof.
  intros Hx1. unfold drift, diffusion, gtb, zero. rewrite !at_pair_1. simpl.
  destruct (Rlt_dec 0 0) as [Hlt|_]; [lra|].
  destruct Hx1 as [-> | (v & -> & Hv)]; [split; reflexivity|].
  destruct (Rlt_dec 0 v) as [Hlt|_]; [lra|]. split; reflexivity.
Qed.

Lemma nonpositive_variance_as_zero_witness :
  drift process store (Num 1) [Num 100; Num (-0.01)]
  = drift process store (Num 1) [Num 50; zero]
  /\ diffusion process store (Num 1) [Num 100; Num (-0.01)]
     = diffusion process store (Num 1) [Num 50; zero].
Proof.
  apply (nonpositive_variance_as_zero process store (Num 1) (Num 100) (Num 50)
           (Num (-0.01))).
  right. exists (-0.01)%R. split; [reflexivity | lra].
Defined.

(** ** The diffusion matrix as a square root of the covariance *)

(** X11: for a correlation [rho] in [-1, 1] and a number [sigma], the
    entries of [diffusion t x] are numbers and the products of its rows are
    the instantaneous covariances: with [w = max (x1, 0)],
    row0.row0 = w, row0.row1 = rho * sigma * w and
    row1.row1 = sigma^2 * w. *)
Theorem diffusion_covariance p (st : Store) (t : Time) (x0 x1 : Real)
    (r s : R) :
  (-1 <= r <= 1)%R ->
  handle_value st (rho_ p) = Ok (Num r) ->
  handle_value st (sigma_ p) = Ok (Num s) ->
  exists m00 m01 m10 m11 : R,
    diffusion p st t [x0; x1]
    = Ok [ [Num m00; Num m01]; [Num m10; Num m11] ]
    /\ (m00 * m00 + m01 * m01 = floored_variance x1)%R
    /\ (m00 * m10 + m01 * m11 = r * s * floored_variance x1)%R
    /\ (m10 * m10 + m11 * m11 = s * s * floored_variance x1)%R.
Proof.
  intros Hrange Hrho Hsigma.
  destruct (floor_is_floored x1) as (s1 & Hfl & Hs1).
  pose proof (floored_variance_square x1 s1 Hfl) as Hw.
  assert (Hsq : (0 <= 1 - r * r)%R) by nra.
  exists s1, 0%R, (r * (s * s1))%R, (sqrt (1 - r * r) * (s * s1))%R.
  split.
  - rewrite (diffusion_pair p st t x0 x1 (Num r) (Num s)) by assumption.
    cbv zeta. rewrite Hs1.
    replace (one - Num r * Num r)%Real with (Num (1 - r * r)) by reflexivity.
    rewrite std_sqrt_nonneg by assumption. reflexivity.
  - pose proof (sqrt_sqrt _ Hsq) as Hroot.
    set (c := sqrt (1 - r * r)) in *. rewrite <- Hw.
    repeat split; [ring | ring |].
    replace (c * (s * s1) * (c * (s * s1)))%R
      with ((c * c) * (s * s1 * (s * s1)))%R by ring.
    rewrite Hroot. ring.
Qed.

Lemma diffusion_covariance_witness :
  exists m00 m01 m10 m11 : R,
    diffusion process store (Num 1) [Num 100; Num 0.04]
    = Ok [ [Num m00; Num m01]; [Num m10; Num m11] ]
    /\ (m00 * m00 + m01 * m01 = floored_variance (Num 0.04))%R
    /\ (m00 * m10 + m01 * m11 = -0.6 * 0.3 * floored_variance (Num 0.04))%R
    /\ (m10 * m10 + m11 * m11 = 0.3 * 0.3 * floored_variance (Num 0.04))%R.
Proof.
  apply (diffusion_covariance process store (Num 1) (Num 100) (Num 0.04)
           (-0.6)%R 0.3%R);
    [lra | reflexivity | reflexivity].
Defined.

(** X12: the correlation is not validated.  Whenever [rho] is a number
    outside [-1, 1], the entry [M[1][1]] of [diffusion t x] is NaN, for
    every two-component state and every [sigma]: the square root of the
    negative [1 - rho * rho] is NaN and the product with [sigma2] keeps it.
    The first row is still [[sigma1, 0]] with [sigma1] a number. *)
Theorem diffusion_nan_when_rho_out_of_range p (st : Store) (t : Time)
    (x0 x1 : Real) (r : R) (s : Real) :
  ~ (-1 <= r <= 1)%R ->
  handle_value st (rho_ p) = Ok (Num r) ->
  handle_value st (sigma_ p) = Ok s ->
  exists (m00 : R) (m10 : Real),
    floored x1 m00
    /\ diffusion p st t [x0; x1] = Ok [ [Num m00; Num 0]; [m10; NaN] ].
Proof.
  intros Hout Hrho Hsigma.
  destruct (floor_is_floored x1) as (s1 & Hfl & Hs1).
  assert (Hneg : (1 - r * r < 0)%R).
  { destruct (Rle_dec (-1) r) as [Hlo|Hlo]; [|nra].
    destruct (Rle_dec r 1) as [Hhi|Hhi]; [|nra].
    exfalso. apply Hout. split; assumption. }
  exists s1. eexists. split; [exact Hfl|].
  rewrite (diffusion_pair p st t x0 x1 (Num r) s) by assumption.
  cbv zeta. rewrite Hs1.
  replace (one - Num r * Num r)%Real with (Num (1 - r * r)) by reflexivity.
  rewrite std_sqrt_neg by assumption. reflexivity.
Qed.

Lemma diffusion_nan_when_rho_out_of_range_witness :
  exists (m00 : R) (m10 : Real),
    floored (Num 0.04) m00
    /\ diffusion (fst example_rho2) (snd example_rho2) (Num 1)
         [Num 100; Num 0.04]
       = Ok [ [Num m00; Num 0]; [m10; NaN] ].
Proof.
  apply (diffusion_nan_when_rho_out_of_range (fst example_rho2)
           (snd example_rho2) (Num 1) (Num 100) (Num 0.04) 2%R (Num 0.3));
    [lra | reflexivity | reflexivity].
Defined.

(** ** Empty handles *)

(** X13: the constructor accepts empty curve and spot handles; the
    failure comes where a handle is used.  On a process constructed with
    the three handles empty, [time], [initialValues] and [drift] fail with
    the empty-handle error, while [diffusion] and [apply], which use none
    of the three, succeed on two-component arguments. *)
Theorem empty_handles_fail_at_use (a b c d e : Real) (st : Store)
    (dt : Date) (t : Time) (x0 x1 dx0 dx1 : Real) :
  let ps := HestonProcess_new None None None a b c d e st in
  time ps.1 dt = Err EmptyHandle
  /\ initialValues ps.1 ps.2 = Err EmptyHandle
  /\ drift ps.1 ps.2 t [x0; x1] = Err EmptyHandle
  /\ (exists m, diffusion ps.1 ps.2 t [x0; x1] = Ok m)
  /\ (exists y, apply ps.1 [x0; x1] [dx0; dx1] = Ok y).
Proof.
  destruct (HestonProcess_new_spec None None None a b c d e st)
    as (q1 & q2 & q3 & q4 & q5 & st' & -> & _ & _ & _ & _ & _ & _ & L4 & L5).
  cbv zeta. simpl. repeat split; try reflexivity.
  - eexists. apply diffusion_pair; unfold handle_value, value; simpl.
    + rewrite L5. reflexivity.
    + rewrite L4. reflexivity.
  - eexists. apply apply_pair.
Qed.

(** ** Mean reversion *)

(** X14, over exact real arithmetic: for a positive speed [kappa], the
    variance component of the drift points towards [theta]: it is
    positive, zero or negative exactly when the floored variance
    [max (x1, 0)] is below, at or above [theta].  In particular a negative
    variance is pushed back up whenever [theta > 0]. *)
Theorem drift_mean_reversion p (st : Store) (t : Time) (x0 x1 : Real)
    rf dv (k th : R) :
  (0 < k)%R ->
  riskFreeRate_ p = Some rf ->
  dividendYield_ p = Some dv ->
  handle_value st (kappa_ p) = Ok (Num k) ->
  handle_value st (theta_ p) = Ok (Num th) ->
  exists (d0 : Real) (d1 : R),
    drift p st t [x0; x1] = Ok [d0; Num d1]
    /\ ((0 < d1)%R <-> (floored_variance x1 < th)%R)
    /\ (d1 = 0%R <-> floored_variance x1 = th)
    /\ ((d1 < 0)%R <-> (th < floored_variance x1)%R).
Proof.
  intros Hk Hrf Hdv Hkappa Htheta.
  rewrite (drift_pair p st t x0 x1 rf dv (Num k) (Num th)) by assumption.
  cbv zeta.
  destruct (floor_is_floored x1) as (s & Hfl & ->).
  rewrite <- (floored_variance_square x1 s Hfl).
  eexists. exists (k * (th - s * s))%R. split; [reflexivity|].
  repeat split; intros H; nra.
Qed.

Lemma drift_mean_reversion_witness :
  exists (d0 : Real) (d1 : R),
    drift process store (Num 1) [Num 100; Num (-0.01)] = Ok [d0; Num d1]
    /\ ((0 < d1)%R <-> (floored_variance (Num (-0.01)) < 0.04)%R)
    /\ (d1 = 0%R <-> floored_variance (Num (-0.01)) = 0.04%R)
    /\ ((d1 < 0)%R <-> (0.04 < floored_variance (Num (-0.01)))%R).
Proof.
  apply (drift_mean_reversion process store (Num 1) (Num 100) (Num (-0.01))
           (flat_curve (Num 0.02)) (flat_curve (Num 0)) 2%R 0.04%R);
    [lra | reflexivity | reflexivity | reflexivity | reflexivity].
Defined.
